(** * autoyear: the year and copyright formatters of [src/index.tsx]

    A shallow embedding of the four exports of [src/index.tsx]
    ([AutoYear], [Copyright], [useAutoYear], [useCopyright]) and the
    properties of the copyright string they build.

    Modelling choices.
    - TypeScript types are kept: [string | undefined] is [option string],
      [number | undefined] is [option Z].  Numbers are restricted to
      integers, which is what the data model uses for years.  An integer
      is printed by its decimal digits; that is what
      [Number.prototype.toString] prints for every integer up to 2^53 in
      magnitude ([safe_integer]), hence for every year a [Date] can hold.
      Beyond that JavaScript rounds the digits and, from 10^21 on, prints
      an exponent, so a statement that spells out the digits of a start
      year carries the bound.
    - Strings are [string] (UTF-8 bytes).  Only emptiness, concatenation
      and equality of strings are used, and these agree with the UTF-16
      strings of the source.
    - [new Date()] reads the host clock.  The clock lives in a [World]
      that is threaded through every call with a state monad, so that
      "reads the clock" and "changes nothing" are statements about the
      model rather than conventions. *)

From Stdlib Require Import ZArith List Bool Lia.
From Stdlib Require Import Strings.String Strings.Ascii Numbers.DecimalString.
From Stdlib Require Import Numbers.DecimalPos Numbers.DecimalZ.
From ExtLib Require Import Structures.Monad Structures.MonadState Structures.MonadExc.
From ExtLib Require Import Data.Monads.StateMonad Data.Monads.EitherMonad.
Import ListNotations.
Import MonadNotation.

Local Open Scope monad_scope.
Local Open Scope Z_scope.
Local Open Scope string_scope.

(** ** The JavaScript primitives the source relies on *)

Module Js.

(** The values that end up in the [parts] array, and whose truthiness
    the source tests. *)
Inductive value : Type :=
| VUndefined
| VNumber (z : Z)
| VString (s : string).

(** [Number.prototype.toString()] and [`${n}`] on an integer: its decimal
    digits, exact for integers up to 2^53 in magnitude. *)
Definition Number_toString (z : Z) : string :=
  NilZero.string_of_int (Z.to_int z).

(** Abstract operation ToString. *)
Definition ToString (v : value) : string :=
  match v with
  | VUndefined => "undefined"
  | VNumber z => Number_toString z
  | VString s => s
  end.

(** Abstract operation ToBoolean, which is what [Boolean(v)] and the
    operand test of [&&] and [?:] compute: [undefined], [0] and [""]
    are falsy. *)
Definition ToBoolean (v : value) : bool :=
  match v with
  | VUndefined => false
  | VNumber z => negb (z =? 0)%Z
  | VString EmptyString => false
  | VString (String _ _) => true
  end.

(** [x < y] on two numbers. *)
Definition Number_lessThan (x y : Z) : bool := (x <? y)%Z.

(** [x && e] in condition position, for [x : A | undefined] and a
    right operand [e] that is a boolean expression in which [x] is
    narrowed to [A].  When [x] is falsy the result is [x] itself
    (falsy) and [e] is not evaluated. *)
Definition and_then {A : Type} (inj : A -> value) (x : option A)
           (e : A -> bool) : bool :=
  match x with
  | None => ToBoolean VUndefined
  | Some a => if ToBoolean (inj a) then e a else false
  end.

(** A destructuring default, [{ p = d }]: used when the property is
    [undefined]. *)
Definition default_to {A : Type} (d : A) (x : option A) : A :=
  match x with
  | Some a => a
  | None => d
  end.

(** A [string | undefined] as an array element. *)
Definition of_opt_string (x : option string) : value :=
  match x with
  | Some s => VString s
  | None => VUndefined
  end.

(** [arr.filter(Boolean)]. *)
Definition Array_filter_Boolean (arr : list value) : list value :=
  filter ToBoolean arr.

(** What [Array.prototype.join] prints for one element: [undefined]
    gives the empty string, anything else its ToString. *)
Definition join_element (v : value) : string :=
  match v with
  | VUndefined => ""
  | _ => ToString v
  end.

(** [arr.join(sep)] with a string separator. *)
Fixpoint Array_join (arr : list value) (sep : string) : string :=
  match arr with
  | [] => ""
  | [v] => join_element v
  | v :: rest => join_element v ++ sep ++ Array_join rest sep
  end.

(** A [Date], by the local-time fields its getters return. *)
Record Date : Type := mkDate {
  date_fullYear : Z;
  date_month : Z;
  date_day : Z;
  date_msOfDay : Z
}.

Definition getFullYear (d : Date) : Z := date_fullYear d.

(** The host: its clock. *)
Record World : Type := mkWorld {
  clock : Date
}.

(** [new Date()]: the current reading of the clock. *)
Definition new_Date : state World Date :=
  w <- get ;;
  ret (clock w).

End Js.

Import Js.

(** ** React elements *)

Module React.

Definition CSSProperties : Type := list (string * string).

Record Props : Type := mkProps {
  props_className : option string;
  props_style : option CSSProperties
}.

Record ReactElement : Type := mkElement {
  elem_type : string;
  elem_props : Props;
  elem_children : string
}.

(** [React.createElement(type, props, child)] with one text child. *)
Definition createElement (type : string) (props : Props)
           (child : string) : ReactElement :=
  mkElement type props child.

End React.

Import React.

(** ** The source: [src/index.tsx] *)

(** [interface AutoYearProps]; the field [as] is spelled [as_]. *)
Record AutoYearProps : Type := mkAutoYearProps {
  as_ : option string;
  className : option string;
  style : option CSSProperties
}.

(** [interface CopyrightProps extends AutoYearProps]. *)
Record CopyrightProps : Type := mkCopyrightProps {
  base : AutoYearProps;
  p_prefix : option string;
  p_name : option string;
  p_startYear : option Z;
  p_separator : option string
}.

(** [interface UseCopyrightOptions]. *)
Record UseCopyrightOptions : Type := mkOptions {
  prefix : option string;
  name : option string;
  startYear : option Z;
  separator : option string
}.

(** The object literal [{}]. *)
Definition empty_options : UseCopyrightOptions :=
  mkOptions None None None None.

(** A [number | undefined] as a value. *)
Definition of_opt_number (x : option Z) : value :=
  match x with
  | Some z => VNumber z
  | None => VUndefined
  end.

(** [export function AutoYear({ as: Component = "span", className, style })]. *)
Definition AutoYear (props : AutoYearProps) : state World ReactElement :=
  let Component := default_to "span" (as_ props) in
  let className := className props in
  let style := style props in
  d <- new_Date ;;
  let year := getFullYear d in
  ret (createElement Component (mkProps className style) (Number_toString year)).

(** [export function Copyright({ as: Component = "span", className, style,
    prefix = "©", name, startYear, separator = " " })]. *)
Definition Copyright (props : CopyrightProps) : state World ReactElement :=
  let Component := default_to "span" (as_ (base props)) in
  let className := className (base props) in
  let style := style (base props) in
  let prefix := default_to "©" (p_prefix props) in
  let name := p_name props in
  let startYear := p_startYear props in
  let separator := default_to " " (p_separator props) in
  d <- new_Date ;;
  let currentYear := getFullYear d in
  let yearDisplay :=
    if and_then VNumber startYear (fun startYear => Number_lessThan startYear currentYear)
    then ToString (of_opt_number startYear) ++ "-" ++ ToString (VNumber currentYear)
    else Number_toString currentYear in
  let parts :=
    Array_filter_Boolean [VString prefix; VString yearDisplay; of_opt_string name] in
  let text := Array_join parts separator in
  ret (createElement Component (mkProps className style) text).

(** [export function useAutoYear(): number]. *)
Definition useAutoYear : state World Z :=
  d <- new_Date ;;
  ret (getFullYear d).

(** [export function useCopyright(options: UseCopyrightOptions = {}): string];
    [None] is the call without an argument. *)
Definition useCopyright (options : option UseCopyrightOptions) : state World string :=
  let options := default_to empty_options options in
  let prefix := default_to "©" (prefix options) in
  let name := name options in
  let startYear := startYear options in
  let separator := default_to " " (separator options) in
  d <- new_Date ;;
  let currentYear := getFullYear d in
  let yearDisplay :=
    if and_then VNumber startYear (fun startYear => Number_lessThan startYear currentYear)
    then ToString (of_opt_number startYear) ++ "-" ++ ToString (VNumber currentYear)
    else Number_toString currentYear in
  let parts :=
    Array_filter_Boolean [VString prefix; VString yearDisplay; of_opt_string name] in
  ret (Array_join parts separator).

(** ** Reading the source

    Names for what the bodies above compute, so that the statements
    below can speak about it. *)

(** The year the clock of a world shows. *)
Definition year_of (w : World) : Z := getFullYear (clock w).

(** A world whose clock shows the first of January of year [Y]. *)
Definition world_in (Y : Z) : World := mkWorld (mkDate Y 0 1 0).

(** The local constant [yearDisplay] of [Copyright] and [useCopyright],
    as a function of the two variables it reads. *)
Definition yearDisplay (startYear : option Z) (currentYear : Z) : string :=
  if and_then VNumber startYear (fun startYear => Number_lessThan startYear currentYear)
  then ToString (of_opt_number startYear) ++ "-" ++ ToString (VNumber currentYear)
  else Number_toString currentYear.

(** The local constant [parts], likewise. *)
Definition parts_of (prefix yearDisplay : string) (name : option string) : list value :=
  Array_filter_Boolean [VString prefix; VString yearDisplay; of_opt_string name].

(** The options a [Copyright] element is rendered with. *)
Definition options_of (props : CopyrightProps) : UseCopyrightOptions :=
  mkOptions (p_prefix props) (p_name props) (p_startYear props) (p_separator props).

(** The string [useCopyright] returns in a world. *)
Definition copyright_text (options : option UseCopyrightOptions) (w : World) : string :=
  fst (runState (useCopyright options) w).

(** The text child of the element [Copyright] returns in a world. *)
Definition Copyright_text (props : CopyrightProps) (w : World) : string :=
  elem_children (fst (runState (Copyright props) w)).

(** The integers JavaScript represents one by one and prints digit by
    digit: on these [Number_toString] is [Number.prototype.toString]. *)
Definition safe_integer (z : Z) : Prop := Z.abs z <= 2 ^ 53.

(** The text child of the element [AutoYear] returns in a world. *)
Definition AutoYear_text (props : AutoYearProps) (w : World) : string :=
  elem_children (fst (runState (AutoYear props) w)).

(** What the join puts in front of the year display: the prefix and one
    separator when the prefix is kept, nothing otherwise. *)
Definition lead (prefix separator : string) : string :=
  match prefix with
  | EmptyString => EmptyString
  | String _ _ => prefix ++ separator
  end.

(** What the join puts behind the year display: one separator and the
    name when the name is kept, nothing otherwise. *)
Definition trail (name : option string) (separator : string) : string :=
  match name with
  | Some (String c r) => separator ++ String c r
  | Some EmptyString | None => EmptyString
  end.

(** *** The specification's wording *)

Module Spec.

(** "If [startYear] is present and [startYear < currentYear], output
    [{startYear}-{currentYear}]; otherwise output [{currentYear}]." *)
Definition yearDisplay (startYear : option Z) (currentYear : Z) : string :=
  match startYear with
  | Some start =>
      if (start <? currentYear)%Z
      then Number_toString start ++ "-" ++ Number_toString currentYear
      else Number_toString currentYear
  | None => Number_toString currentYear
  end.

(** An entry that is kept: present and not empty. *)
Definition kept (entry : option string) : list string :=
  match entry with
  | Some (String c s) => [String c s]
  | Some EmptyString | None => []
  end.

(** "Assemble ordered parts [prefix, yearDisplay, name], drop
    empty/absent entries, join remaining with [separator]." *)
Definition assemble (prefix yearDisplay : string) (name : option string)
           (separator : string) : string :=
  String.concat separator
    (kept (Some prefix) ++ kept (Some yearDisplay) ++ kept name)%list.

End Spec.

(** ** The source again, with the exceptions of the runtime

    The same four bodies, run by a JavaScript engine that can throw.  Two
    steps of the bodies are of a kind that throws a [TypeError]: binding
    an object pattern to [undefined] or [null], and calling a method on
    [undefined].  The other steps ([&&], [<] on numbers, a template
    literal of numbers, [filter(Boolean)], [join] with a string,
    [createElement]) do not throw on values of the types at hand.  An
    argument is whatever the caller passes where an object is expected;
    the fields of an object keep their TypeScript types. *)

Module Runtime.

Inductive Error : Type :=
| TypeError (message : string).

#[local] Existing Instance Monad_stateT.

(** A computation reads and may change the world, and completes with a
    value ([inr]) or throws ([inl]). *)
Abbreviation js := (stateT World (sum Error)).

(** What can be passed where an object of type [A] is expected. *)
Inductive nullable (A : Type) : Type :=
| Undefined
| Null
| Object (a : A).

Arguments Undefined {A}.
Arguments Null {A}.
Arguments Object {A} a.

(** A parameter default, [(p = d)]: used when the argument is
    [undefined], also when it is omitted; [null] is passed on. *)
Definition param_default {A : Type} (d : A) (arg : nullable A) : nullable A :=
  match arg with
  | Undefined => Object d
  | Null | Object _ => arg
  end.

(** Binding an object pattern, [{ a, b } = v]: throws unless [v] is an
    object. *)
Definition destructure {A : Type} (v : nullable A) : js A :=
  match v with
  | Object a => ret a
  | Undefined => raise (TypeError "Cannot destructure 'undefined' as it is undefined.")
  | Null => raise (TypeError "Cannot destructure 'null' as it is null.")
  end.

(** The method call [v.toString()]: throws when [v] is [undefined]. *)
Definition invoke_toString (receiver : value) : js string :=
  match receiver with
  | VUndefined =>
      raise (TypeError "Cannot read properties of undefined (reading 'toString')")
  | VNumber _ | VString _ => ret (ToString receiver)
  end.

Definition new_Date : js Date :=
  w <- get ;;
  ret (clock w).

Definition AutoYear (props : nullable AutoYearProps) : js ReactElement :=
  p <- destructure props ;;
  let Component := default_to "span" (as_ p) in
  let className := className p in
  let style := style p in
  d <- new_Date ;;
  let year := getFullYear d in
  text <- invoke_toString (VNumber year) ;;
  ret (createElement Component (mkProps className style) text).

Definition Copyright (props : nullable CopyrightProps) : js ReactElement :=
  p <- destructure props ;;
  let Component := default_to "span" (as_ (base p)) in
  let className := className (base p) in
  let style := style (base p) in
  let prefix := default_to "©" (p_prefix p) in
  let name := p_name p in
  let startYear := p_startYear p in
  let separator := default_to " " (p_separator p) in
  d <- new_Date ;;
  let currentYear := getFullYear d in
  yearDisplay <-
    (if and_then VNumber startYear (fun startYear => Number_lessThan startYear currentYear)
     then ret (ToString (of_opt_number startYear) ++ "-" ++ ToString (VNumber currentYear))
     else invoke_toString (VNumber currentYear)) ;;
  let parts :=
    Array_filter_Boolean [VString prefix; VString yearDisplay; of_opt_string name] in
  let text := Array_join parts separator in
  ret (createElement Component (mkProps className style) text).

Definition useAutoYear : js Z :=
  d <- new_Date ;;
  ret (getFullYear d).

Definition useCopyright (options : nullable UseCopyrightOptions) : js string :=
  let options := param_default empty_options options in
  o <- destructure options ;;
  let prefix := default_to "©" (prefix o) in
  let name := name o in
  let startYear := startYear o in
  let separator := default_to " " (separator o) in
  d <- new_Date ;;
  let currentYear := getFullYear d in
  yearDisplay <-
    (if and_then VNumber startYear (fun startYear => Number_lessThan startYear currentYear)
     then ret (ToString (of_opt_number startYear) ++ "-" ++ ToString (VNumber currentYear))
     else invoke_toString (VNumber currentYear)) ;;
  let parts :=
    Array_filter_Boolean [VString prefix; VString yearDisplay; of_opt_string name] in
  ret (Array_join parts separator).

(** An optional argument of the typed interface, as passed at run time. *)
Definition passed {A : Type} (arg : option A) : nullable A :=
  match arg with
  | Some a => Object a
  | None => Undefined
  end.

End Runtime.

(** ** Lemmas on the primitives *)

Lemma Number_toString_cons (z : Z) :
  exists c s, Number_toString z = String c s.
Proof.
  unfold Number_toString.
  destruct (Z.to_int z) as [d | d]; destruct d; simpl; eauto.
Qed.

Lemma Number_toString_nonempty (z : Z) : Number_toString z <> "".
Proof.
  destruct (Number_toString_cons z) as (c & s & E). rewrite E. discriminate.
Qed.

Lemma ToBoolean_Number_toString (z : Z) :
  ToBoolean (VString (Number_toString z)) = true.
Proof.
  destruct (Number_toString_cons z) as (c & s & E). rewrite E. reflexivity.
Qed.

Lemma Array_join_strings (l : list string) (sep : string) :
  Array_join (map VString l) sep = String.concat sep l.
Proof.
  induction l as [| x [| y l] IH]; simpl in *; try reflexivity.
  now rewrite IH.
Qed.

Lemma parts_of_kept (p yd : string) (n : option string) :
  parts_of p yd n =
  map VString (Spec.kept (Some p) ++ Spec.kept (Some yd) ++ Spec.kept n)%list.
Proof.
  unfold parts_of, Array_filter_Boolean.
  destruct p, yd, n as [[|] |]; reflexivity.
Qed.

Lemma Array_join_parts (p yd : string) (n : option string) (sep : string) :
  Array_join (parts_of p yd n) sep = Spec.assemble p yd n sep.
Proof.
  rewrite parts_of_kept. apply Array_join_strings.
Qed.

Lemma append_empty_r (s : string) : s ++ "" = s.
Proof. induction s as [| c s IH]; simpl; [| rewrite IH]; reflexivity. Qed.

Lemma append_assoc (s t u : string) : (s ++ t) ++ u = s ++ t ++ u.
Proof. induction s as [| c s IH]; simpl; [| rewrite IH]; reflexivity. Qed.

(** A string that is an element of an array shows up in its join. *)
Lemma Array_join_In (s : string) (l : list value) (sep : string) :
  In (VString s) l ->
  exists before after, Array_join l sep = before ++ s ++ after.
Proof.
  induction l as [| v l IH]; intros H; [destruct H |].
  destruct H as [-> | H].
  - destruct l as [| v' l'].
    + exists "", "". simpl. now rewrite append_empty_r.
    + exists "", (sep ++ Array_join (v' :: l') sep). reflexivity.
  - destruct (IH H) as (b & a & E).
    destruct l as [| v' l']; [destruct H |].
    exists (join_element v ++ sep ++ b), a.
    change (Array_join (v :: v' :: l') sep)
      with (join_element v ++ sep ++ Array_join (v' :: l') sep).
    rewrite E. now rewrite !append_assoc.
Qed.

(** ** Lemmas on the bodies *)

Lemma useCopyright_run (options : option UseCopyrightOptions) (w : World) :
  runState (useCopyright options) w =
  (let o := default_to empty_options options in
   Array_join
     (parts_of (default_to "©" (prefix o))
               (yearDisplay (startYear o) (year_of w))
               (name o))
     (default_to " " (separator o)),
   w).
Proof. reflexivity. Qed.

Lemma Copyright_run (props : CopyrightProps) (w : World) :
  runState (Copyright props) w =
  (createElement
     (default_to "span" (as_ (base props)))
     (mkProps (className (base props)) (style (base props)))
     (Array_join
        (parts_of (default_to "©" (p_prefix props))
                  (yearDisplay (p_startYear props) (year_of w))
                  (p_name props))
        (default_to " " (p_separator props))),
   w).
Proof. reflexivity. Qed.

Lemma AutoYear_run (props : AutoYearProps) (w : World) :
  runState (AutoYear props) w =
  (createElement
     (default_to "span" (as_ props))
     (mkProps (className props) (style props))
     (Number_toString (year_of w)),
   w).
Proof. reflexivity. Qed.

Lemma useAutoYear_run (w : World) :
  runState useAutoYear w = (year_of w, w).
Proof. reflexivity. Qed.

(** *** The year display, case by case *)

Lemma yearDisplay_absent (Y : Z) : yearDisplay None Y = Number_toString Y.
Proof. reflexivity. Qed.

Lemma yearDisplay_zero (Y : Z) : yearDisplay (Some 0) Y = Number_toString Y.
Proof. reflexivity. Qed.

Lemma yearDisplay_range (start Y : Z) :
  start <> 0 -> start < Y ->
  yearDisplay (Some start) Y = Number_toString start ++ "-" ++ Number_toString Y.
Proof.
  intros Hnz Hlt. unfold yearDisplay, and_then, Number_lessThan. simpl.
  destruct (Z.eqb_spec start 0) as [E | _]; [contradiction |].
  simpl. destruct (Z.ltb_spec start Y) as [_ | Hge]; [reflexivity | lia].
Qed.

Lemma yearDisplay_not_before (start Y : Z) :
  Y <= start -> yearDisplay (Some start) Y = Number_toString Y.
Proof.
  intros Hle. unfold yearDisplay, and_then, Number_lessThan. simpl.
  destruct (negb (start =? 0)%Z); [| reflexivity].
  destruct (Z.ltb_spec start Y) as [Hlt | _]; [lia | reflexivity].
Qed.

Lemma yearDisplay_cases (startYear : option Z) (Y : Z) :
  yearDisplay startYear Y = Number_toString Y \/
  exists start, startYear = Some start /\ start <> 0 /\ start < Y /\
    yearDisplay startYear Y = Number_toString start ++ "-" ++ Number_toString Y.
Proof.
  destruct startYear as [start |]; [| left; reflexivity].
  destruct (Z.eq_dec start 0) as [-> | Hnz]; [left; reflexivity |].
  destruct (Z_lt_le_dec start Y) as [Hlt | Hle].
  - right. exists start. repeat split; auto using yearDisplay_range.
  - left. now apply yearDisplay_not_before.
Qed.

Lemma yearDisplay_cons (startYear : option Z) (Y : Z) :
  exists c s, yearDisplay startYear Y = String c s.
Proof.
  destruct (yearDisplay_cases startYear Y) as [E | (start & _ & _ & _ & E)];
    rewrite E.
  - apply Number_toString_cons.
  - destruct (Number_toString_cons start) as (c & s & Es). rewrite Es.
    simpl. eauto.
Qed.

(** The empty-entry filter keeps the year display. *)
Lemma yearDisplay_in_parts (p : string) (startYear : option Z) (Y : Z)
      (n : option string) :
  In (VString (yearDisplay startYear Y)) (parts_of p (yearDisplay startYear Y) n).
Proof.
  unfold parts_of, Array_filter_Boolean. apply filter_In. split.
  - simpl. auto.
  - destruct (yearDisplay_cons startYear Y) as (c & s & E). now rewrite E.
Qed.

(** Where the source and the wording of the specification agree on the
    year display: everywhere but at [startYear = 0]. *)
Lemma yearDisplay_agrees_with_spec (startYear : option Z) (Y : Z) :
  startYear <> Some 0 ->
  yearDisplay startYear Y = Spec.yearDisplay startYear Y.
Proof.
  intros Hnz. destruct startYear as [start |]; [| reflexivity].
  assert (start <> 0) as Hs by congruence.
  unfold Spec.yearDisplay.
  destruct (Z.ltb_spec start Y) as [Hlt | Hge].
  - now apply yearDisplay_range.
  - now apply yearDisplay_not_before.
Qed.

Lemma length_append (s t : string) :
  String.length (s ++ t) = (String.length s + String.length t)%nat.
Proof. induction s as [| c s IH]; simpl; [| rewrite IH]; reflexivity. Qed.

(** At [startYear = 0] they differ in every year after 0: the wording
    asks for the range, the source prints the current year alone. *)
Lemma yearDisplay_differs_from_spec_at_zero (Y : Z) :
  0 < Y ->
  yearDisplay (Some 0) Y <> Spec.yearDisplay (Some 0) Y.
Proof.
  intros HY. rewrite yearDisplay_zero. unfold Spec.yearDisplay.
  destruct (Z.ltb_spec 0 Y) as [_ | Hge]; [| lia].
  intros E. apply (f_equal String.length) in E.
  rewrite !length_append in E. simpl in E. lia.
Qed.

Lemma append_cons_nonempty (b a : string) (c : ascii) (s : string) :
  b ++ String c s ++ a <> "".
Proof. destruct b; discriminate. Qed.

(** The text of the hook, through the specification's assembly. *)
Lemma useCopyright_assemble (options : option UseCopyrightOptions) (w : World) :
  runState (useCopyright options) w =
  (let o := default_to empty_options options in
   Spec.assemble (default_to "©" (prefix o))
                 (yearDisplay (startYear o) (year_of w))
                 (name o)
                 (default_to " " (separator o)),
   w).
Proof.
  rewrite useCopyright_run. cbv zeta. now rewrite Array_join_parts.
Qed.

(** A non-empty prefix, the year display and a name, assembled. *)
Lemma assemble_three (c : ascii) (p : string) (startYear : option Z) (Y : Z)
      (n : option string) (sep : string) :
  Spec.assemble (String c p) (yearDisplay startYear Y) n sep =
  match n with
  | Some (String d r) =>
      String c p ++ sep ++ yearDisplay startYear Y ++ sep ++ String d r
  | Some EmptyString | None => String c p ++ sep ++ yearDisplay startYear Y
  end.
Proof.
  unfold Spec.assemble.
  destruct (yearDisplay_cons startYear Y) as (e & s & E). rewrite E.
  destruct n as [[| d r] |]; reflexivity.
Qed.

(** An empty prefix, the year display and a name, assembled. *)
Lemma assemble_two (startYear : option Z) (Y : Z) (n : option string)
      (sep : string) :
  Spec.assemble "" (yearDisplay startYear Y) n sep =
  match n with
  | Some (String d r) => yearDisplay startYear Y ++ sep ++ String d r
  | Some EmptyString | None => yearDisplay startYear Y
  end.
Proof.
  unfold Spec.assemble.
  destruct (yearDisplay_cons startYear Y) as (e & s & E). rewrite E.
  destruct n as [[| d r] |]; reflexivity.
Qed.

(** *** How the text begins *)

Lemma prefix_append (a b : string) : String.prefix a (a ++ b) = true.
Proof.
  induction a as [| c a IH]; simpl.
  - now destruct b.
  - destruct (ascii_dec c c) as [_ | Hne]; [exact IH | contradiction].
Qed.

(** A string starts with a non-empty string only if their first
    characters agree. *)
Lemma prefix_head (x : string) (c : ascii) (r : string) :
  String.prefix x (String c r) = true ->
  x = "" \/ exists x', x = String c x'.
Proof.
  destruct x as [| d x']; [now left |]. simpl.
  destruct (ascii_dec d c) as [-> | _]; [| discriminate].
  right. now exists x'.
Qed.

Lemma prefix_head_differs (a c : ascii) (x r : string) :
  a <> c -> String.prefix (String a x) (String c r) = false.
Proof.
  intros Hne. cbn [String.prefix].
  destruct (ascii_dec a c) as [E | _]; [contradiction | reflexivity].
Qed.

(** A printed number begins with a digit or a minus sign, not with a
    space. *)
Lemma Number_toString_head (z : Z) :
  exists c s, Number_toString z = String c s /\ c <> " "%char.
Proof.
  unfold Number_toString.
  destruct (Z.to_int z) as [d | d]; destruct d; simpl;
    eexists _, _; (split; [reflexivity | discriminate]).
Qed.

Lemma yearDisplay_head (startYear : option Z) (Y : Z) :
  exists c s, yearDisplay startYear Y = String c s /\ c <> " "%char.
Proof.
  destruct (yearDisplay_cases startYear Y) as [E | (start & _ & _ & _ & E)];
    rewrite E.
  - apply Number_toString_head.
  - destruct (Number_toString_head start) as (c & s & Es & Hc). rewrite Es.
    simpl. eauto.
Qed.

(** *** The bodies under the runtime that can throw *)

Lemma Runtime_useCopyright_run (options : option UseCopyrightOptions) (w : World) :
  runStateT (Runtime.useCopyright (Runtime.passed options)) w
  = inr (runState (useCopyright options) w).
Proof.
  rewrite useCopyright_run. unfold yearDisplay.
  destruct options as [o |]; cbn;
    [destruct (and_then VNumber (startYear o) _) |]; reflexivity.
Qed.

Lemma Runtime_Copyright_run (props : CopyrightProps) (w : World) :
  runStateT (Runtime.Copyright (Runtime.Object props)) w
  = inr (runState (Copyright props) w).
Proof.
  rewrite Copyright_run. unfold yearDisplay. cbn.
  destruct (and_then VNumber _ _); reflexivity.
Qed.

Lemma Runtime_AutoYear_run (props : AutoYearProps) (w : World) :
  runStateT (Runtime.AutoYear (Runtime.Object props)) w
  = inr (runState (AutoYear props) w).
Proof. reflexivity. Qed.

Lemma Runtime_useAutoYear_run (w : World) :
  runStateT Runtime.useAutoYear w = inr (runState useAutoYear w).
Proof. reflexivity. Qed.

(** The throwing steps can be reached, by arguments outside the typed
    interface: [null] for the options, nothing for the props. *)
Lemma Runtime_throws_outside_the_types (w : World) :
  (exists e, runStateT (Runtime.useCopyright Runtime.Null) w = inl e) /\
  (exists e, runStateT (Runtime.Copyright Runtime.Undefined) w = inl e) /\
  (exists e, runStateT (Runtime.Copyright Runtime.Null) w = inl e) /\
  (exists e, runStateT (Runtime.AutoYear Runtime.Undefined) w = inl e) /\
  (exists e, runStateT (Runtime.invoke_toString VUndefined) w = inl e).
Proof. repeat split; eexists; reflexivity. Qed.

(** Run the hook symbolically: replace the call by the assembled parts,
    with the defaults resolved. *)
Ltac run_hook :=
  rewrite useCopyright_assemble; cbn -[Spec.assemble yearDisplay].

(** ** The claims *)

(** C1 (year-display rule), evaluated where the source departs from it.
    With [startYear = 0] in 2026 the start year is present and smaller
    than the current year, so the rule asks for the range ["© 0-2026"];
    [useCopyright] returns ["© 2026"], and [Copyright] renders the same.
    For every other start year the source follows the rule
    ([yearDisplay_agrees_with_spec]). *)
Theorem C1_startYear_zero_drops_range :
  let options := Some (mkOptions None None (Some 0) None) in
  let props := mkCopyrightProps (mkAutoYearProps None None None)
                                None None (Some 0) None in
  copyright_text options (world_in 2026) = "© 2026" /\
  Copyright_text props (world_in 2026) = "© 2026" /\
  "© " ++ Spec.yearDisplay (Some 0) 2026 = "© 0-2026" /\
  copyright_text options (world_in 2026) <> "© " ++ Spec.yearDisplay (Some 0) 2026.
Proof.
  cbv zeta. repeat split; try reflexivity.
  vm_compute. discriminate.
Qed.

(** C2 (assembly rule).  The string [useCopyright] returns, and the text
    [Copyright] renders, is the ordered list [prefix, yearDisplay, name]
    with the empty and absent entries dropped and the rest joined with
    the separator; with name ["X"] and separator ["-"] in 2024 that is
    ["©-2024-X"]. *)
Theorem C2_assembly (options : option UseCopyrightOptions)
        (props : CopyrightProps) (w : World) :
  (let o := default_to empty_options options in
   runState (useCopyright options) w =
   (Spec.assemble (default_to "©" (prefix o))
                  (yearDisplay (startYear o) (year_of w))
                  (name o)
                  (default_to " " (separator o)),
    w)) /\
  Copyright_text props w =
    Spec.assemble (default_to "©" (p_prefix props))
                  (yearDisplay (p_startYear props) (year_of w))
                  (p_name props)
                  (default_to " " (p_separator props)) /\
  copyright_text (Some (mkOptions None (Some "X") None (Some "-"))) (world_in 2024)
    = "©-2024-X".
Proof.
  split; [apply useCopyright_assemble |].
  split; [| reflexivity].
  unfold Copyright_text. rewrite Copyright_run. simpl.
  apply Array_join_parts.
Qed.

(** C3 (default formatting).  Without options, or with the empty options
    object, in a year Y the hook returns ["© Y"]. *)
Theorem C3_default_format (w : World) :
  runState (useCopyright None) w = ("© " ++ Number_toString (year_of w), w) /\
  runState (useCopyright (Some empty_options)) w
    = ("© " ++ Number_toString (year_of w), w).
Proof.
  split; run_hook; rewrite assemble_three; reflexivity.
Qed.

(** C4, as stated, fails for the empty name: the name entry is dropped
    together with its separator, so the result is ["© 2024"] and not
    ["© 2024 "]. *)
Lemma C4_empty_name_counterexample :
  let text := copyright_text (Some (mkOptions None (Some "") None None))
                             (world_in 2024) in
  text = "© 2024" /\
  text <> "© " ++ Number_toString 2024 ++ " " ++ "".
Proof.
  cbv zeta. split; [reflexivity |]. vm_compute. discriminate.
Qed.

(** C4 (name formatting), amended.  For every non-empty name N, in a
    year Y the hook called with [{name: N}] returns ["© Y N"]. *)
Theorem C4_name_format (N : string) (w : World) :
  N <> "" ->
  runState (useCopyright (Some (mkOptions None (Some N) None None))) w
    = ("© " ++ Number_toString (year_of w) ++ " " ++ N, w).
Proof.
  intros HN. run_hook. rewrite assemble_three.
  destruct N as [| d r]; [contradiction | reflexivity].
Qed.

Lemma C4_name_format_witness :
  "Acme Inc" <> "" /\
  runState (useCopyright (Some (mkOptions None (Some "Acme Inc") None None)))
           (world_in 2026)
    = ("© 2026 Acme Inc", world_in 2026).
Proof.
  split; [discriminate |].
  apply (C4_name_format "Acme Inc" (world_in 2026)). discriminate.
Defined.

(** C5, as stated, fails: the result can start with the separator.  With
    an empty prefix, separator ["2"] and name ["Acme"] in 2024 the result
    is ["20242Acme"]: no separator was emitted in front, but the year
    display itself begins with the separator's character. *)
Lemma C5_starts_with_separator_counterexample :
  let text := copyright_text (Some (mkOptions (Some "") (Some "Acme") None (Some "2")))
                             (world_in 2024) in
  text = "20242Acme" /\
  String.prefix "2" text = true.
Proof.
  cbv zeta. split; reflexivity.
Qed.

(** C5 (empty prefix), amended.  With an empty prefix the prefix entry is
    dropped from [parts] and no separator is emitted for it: the result
    is the year display alone, or the year display, one separator and
    the name.  So the result starts with the year display; it starts
    with the separator only when the separator is empty or begins with
    the character the year display begins with, and never when the
    separator is the default space. *)
Theorem C5_empty_prefix_omitted (n : option string) (s : option Z)
        (sep : option string) (w : World) :
  let yd := yearDisplay s (year_of w) in
  let text := copyright_text (Some (mkOptions (Some "") n s sep)) w in
  parts_of "" yd n = Array_filter_Boolean [VString yd; of_opt_string n] /\
  runState (useCopyright (Some (mkOptions (Some "") n s sep))) w =
    (match n with
     | Some (String d r) => yd ++ default_to " " sep ++ String d r
     | Some EmptyString | None => yd
     end, w) /\
  String.prefix yd text = true /\
  (String.prefix (default_to " " sep) text = true ->
   default_to " " sep = "" \/
   exists c r r', default_to " " sep = String c r /\ yd = String c r') /\
  String.prefix " " (copyright_text (Some (mkOptions (Some "") n s None)) w) = false.
Proof.
  cbv zeta. split; [reflexivity |].
  split; [run_hook; now rewrite assemble_two |].
  unfold copyright_text. rewrite !useCopyright_assemble.
  cbn -[Spec.assemble yearDisplay String.prefix]. rewrite !assemble_two.
  destruct (yearDisplay_head s (year_of w)) as (c & r' & E & Hc).
  assert (forall sp, exists rest,
            match n with
            | Some (String d r) => yearDisplay s (year_of w) ++ sp ++ String d r
            | Some EmptyString | None => yearDisplay s (year_of w)
            end = yearDisplay s (year_of w) ++ rest) as Hshape.
  { intros sp. destruct n as [[| d r] |]; eexists;
      try reflexivity; symmetry; apply append_empty_r. }
  split; [| split].
  - destruct (Hshape (default_to " " sep)) as (rest & ->). apply prefix_append.
  - destruct (Hshape (default_to " " sep)) as (rest & ->). rewrite E.
    intros H. apply prefix_head in H. destruct H as [H | (x' & H)].
    + now left.
    + right. now exists c, x', r'.
  - destruct (Hshape " ") as (rest & ->). rewrite E.
    apply prefix_head_differs. congruence.
Qed.

(** C6 (no failure paths).  Run by an engine that can throw, with any
    options of the typed interface (given or omitted), any props and any
    clock, the two hooks and the two components complete normally: no
    run ends in a thrown error, each returns the value the bodies
    compute (for the formatter the copyright text), and the world is
    left as it was. *)
Theorem C6_no_failure_paths (options : option UseCopyrightOptions)
        (cprops : CopyrightProps) (aprops : AutoYearProps) (w : World) :
  runStateT (Runtime.useCopyright (Runtime.passed options)) w
    = inr (copyright_text options w, w) /\
  runStateT Runtime.useAutoYear w = inr (year_of w, w) /\
  runStateT (Runtime.Copyright (Runtime.Object cprops)) w
    = inr (fst (runState (Copyright cprops) w), w) /\
  runStateT (Runtime.AutoYear (Runtime.Object aprops)) w
    = inr (fst (runState (AutoYear aprops) w), w) /\
  (forall e,
     runStateT (Runtime.useCopyright (Runtime.passed options)) w <> inl e /\
     runStateT Runtime.useAutoYear w <> inl e /\
     runStateT (Runtime.Copyright (Runtime.Object cprops)) w <> inl e /\
     runStateT (Runtime.AutoYear (Runtime.Object aprops)) w <> inl e).
Proof.
  rewrite Runtime_useCopyright_run, Runtime_Copyright_run,
    Runtime_AutoYear_run, Runtime_useAutoYear_run.
  unfold copyright_text.
  rewrite useCopyright_run, Copyright_run, AutoYear_run, useAutoYear_run.
  cbn [fst]. repeat split; discriminate.
Qed.

(** C7, as stated, fails: the current year is not an argument.  The same
    call returns different strings in worlds whose clocks differ, because
    the body reads the clock itself with [new Date().getFullYear()]. *)
Lemma C7_year_read_from_clock_counterexample :
  copyright_text None (world_in 2024) = "© 2024" /\
  copyright_text None (world_in 2025) = "© 2025" /\
  copyright_text None (world_in 2024) <> copyright_text None (world_in 2025).
Proof.
  repeat split. vm_compute. discriminate.
Qed.

(** C7 (determinism), amended.  The hook and the component read the
    current year from the host clock.  That year is all they take from
    the world: two runs with the same options in worlds whose clocks
    show the same year return the same string and the same element, and
    each run leaves its world unchanged. *)
Theorem C7_deterministic_given_clock_year
        (options : option UseCopyrightOptions) (props : CopyrightProps)
        (w1 w2 : World) :
  year_of w1 = year_of w2 ->
  fst (runState (useCopyright options) w1) = fst (runState (useCopyright options) w2) /\
  fst (runState (Copyright props) w1) = fst (runState (Copyright props) w2) /\
  snd (runState (useCopyright options) w1) = w1 /\
  snd (runState (useCopyright options) w2) = w2 /\
  snd (runState (Copyright props) w1) = w1 /\
  snd (runState (Copyright props) w2) = w2.
Proof.
  intros HY. rewrite !useCopyright_run, !Copyright_run. cbn [fst snd].
  rewrite HY. repeat split.
Qed.

Lemma C7_deterministic_given_clock_year_witness :
  let options := Some (mkOptions None (Some "Acme Inc") (Some 2020) None) in
  let props := mkCopyrightProps (mkAutoYearProps (Some "p") None None)
                                (Some "Copyright") (Some "Acme Inc") (Some 2020) None in
  let january := mkWorld (mkDate 2026 0 1 0) in
  let december := mkWorld (mkDate 2026 11 31 86399999) in
  year_of january = year_of december /\
  fst (runState (useCopyright options) january)
    = fst (runState (useCopyright options) december) /\
  fst (runState (Copyright props) january)
    = fst (runState (Copyright props) december) /\
  snd (runState (useCopyright options) january) = january /\
  snd (runState (useCopyright options) december) = december /\
  snd (runState (Copyright props) january) = january /\
  snd (runState (Copyright props) december) = december.
Proof.
  cbv zeta. split; [reflexivity |].
  apply (C7_deterministic_given_clock_year
           (Some (mkOptions None (Some "Acme Inc") (Some 2020) None))
           (mkCopyrightProps (mkAutoYearProps (Some "p") None None)
                             (Some "Copyright") (Some "Acme Inc") (Some 2020) None)
           (mkWorld (mkDate 2026 0 1 0))
           (mkWorld (mkDate 2026 11 31 86399999))).
  reflexivity.
Defined.

(** C8 (component and hook agree).  In every world, the text child of
    the element [Copyright] returns equals the string [useCopyright]
    returns for the same prefix, name, start year and separator. *)
Theorem C8_component_hook_agree (props : CopyrightProps) (w : World) :
  Copyright_text props w = copyright_text (Some (options_of props)) w.
Proof.
  unfold Copyright_text, copyright_text.
  rewrite Copyright_run, useCopyright_run. reflexivity.
Qed.

(** C9 (start year zero).  In a year Y > 0, a start year of 0 is present
    and smaller than Y, yet the year display is just Y: the hook and the
    component behave exactly as if no start year had been given. *)
Theorem C9_startYear_zero_is_absent (p n sep : option string)
        (aprops : AutoYearProps) (w : World) :
  0 < year_of w ->
  Number_lessThan 0 (year_of w) = true /\
  yearDisplay (Some 0) (year_of w) = Number_toString (year_of w) /\
  runState (useCopyright (Some (mkOptions p n (Some 0) sep))) w
    = runState (useCopyright (Some (mkOptions p n None sep))) w /\
  runState (Copyright (mkCopyrightProps aprops p n (Some 0) sep)) w
    = runState (Copyright (mkCopyrightProps aprops p n None sep)) w /\
  runState (useCopyright (Some (mkOptions None None (Some 0) None))) w
    = ("© " ++ Number_toString (year_of w), w).
Proof.
  intros HY. split; [| split; [| split; [| split]]].
  - unfold Number_lessThan. now apply Z.ltb_lt.
  - apply yearDisplay_zero.
  - reflexivity.
  - reflexivity.
  - run_hook. rewrite assemble_three. reflexivity.
Qed.

Lemma C9_startYear_zero_is_absent_witness :
  0 < year_of (world_in 2024) /\
  runState (useCopyright (Some (mkOptions None None (Some 0) None))) (world_in 2024)
    = ("© 2024", world_in 2024).
Proof.
  split; [reflexivity |].
  apply (C9_startYear_zero_is_absent None None None
           (mkAutoYearProps None None None) (world_in 2024)).
  reflexivity.
Defined.

(** C10 (the year is always there).  Whatever the prefix, the name and
    the separator, the year display is the current year in decimal, or a
    range that ends in a hyphen and the current year in decimal (and
    starts with the decimal digits of the start year, when that is a
    safe integer); it is never empty, survives the empty-entry filter as
    an element of [parts], and the returned string, which is the join of
    [parts], contains it and is not empty. *)
Theorem C10_year_always_present (options : option UseCopyrightOptions)
        (w : World) :
  let o := default_to empty_options options in
  let yd := yearDisplay (startYear o) (year_of w) in
  let parts := parts_of (default_to "©" (prefix o)) yd (name o) in
  let text := copyright_text options w in
  (yd = Number_toString (year_of w) \/
   exists start, startYear o = Some start /\ start <> 0 /\ start < year_of w /\
     (exists shown, yd = shown ++ "-" ++ Number_toString (year_of w)) /\
     (safe_integer start ->
      yd = Number_toString start ++ "-" ++ Number_toString (year_of w))) /\
  yd <> "" /\
  In (VString yd) parts /\
  text = Array_join parts (default_to " " (separator o)) /\
  (exists before after, text = before ++ yd ++ after) /\
  text <> "".
Proof.
  cbv zeta. unfold copyright_text. rewrite useCopyright_run. cbn [fst].
  set (o := default_to empty_options options).
  set (Y := year_of w).
  pose proof (yearDisplay_in_parts (default_to "©" (prefix o)) (startYear o) Y (name o))
    as Hin.
  destruct (Array_join_In _ _ (default_to " " (separator o)) Hin)
    as (before & after & Ejoin).
  destruct (yearDisplay_cons (startYear o) Y) as (c & s & Eyd).
  repeat split.
  - destruct (yearDisplay_cases (startYear o) Y)
      as [E | (start & Es & Hnz & Hlt & E)].
    + now left.
    + right. exists start. repeat split; auto.
      now exists (Number_toString start).
  - rewrite Eyd. discriminate.
  - exact Hin.
  - now exists before, after.
  - rewrite Ejoin, Eyd. apply append_cons_nonempty.
Qed.

Lemma C10_year_always_present_witness :
  safe_integer 2020 /\
  yearDisplay (Some 2020) (year_of (world_in 2026)) = "2020-2026" /\
  copyright_text (Some (mkOptions None (Some "Acme Inc") (Some 2020) None))
                 (world_in 2026) <> "".
Proof.
  assert (safe_integer 2020) as Hsafe by (unfold safe_integer; simpl; lia).
  pose proof (C10_year_always_present
                (Some (mkOptions None (Some "Acme Inc") (Some 2020) None))
                (world_in 2026)) as H.
  cbv zeta in H. destruct H as (Hyd & _ & _ & _ & _ & Htext).
  split; [exact Hsafe |]. split; [| exact Htext].
  destruct Hyd as [E | (start & Es & _ & _ & _ & Hdigits)].
  - vm_compute in E. discriminate.
  - injection Es as <-. exact (Hdigits Hsafe).
Defined.

(** ** Further properties of the source *)

(** *** Printing a year is injective *)

Lemma to_int_not_nil (z : Z) :
  Z.to_int z <> Decimal.Pos Decimal.Nil /\ Z.to_int z <> Decimal.Neg Decimal.Nil.
Proof.
  destruct z as [| q | q]; simpl; split; try discriminate;
    intros E; injection E; apply DecimalPos.Unsigned.to_uint_nonnil.
Qed.

(** Reading the printed digits back gives the number that was printed. *)
Lemma Number_toString_read_back (z : Z) :
  NilZero.int_of_string (Number_toString z) = Some (Z.to_int z).
Proof.
  destruct (to_int_not_nil z) as [Hp Hn]. now apply NilZero.isi.
Qed.

Lemma Number_toString_inj (a b : Z) :
  Number_toString a = Number_toString b -> a = b.
Proof.
  intros E. apply DecimalZ.to_int_inj.
  pose proof (Number_toString_read_back a) as Ha.
  rewrite E, Number_toString_read_back in Ha. congruence.
Qed.

(** A hyphen that is not the first character makes a string unreadable
    as a number. *)
Lemma hyphen_inside_unreadable (x y : string) :
  NilEmpty.uint_of_string (x ++ String "-" y) = None.
Proof.
  induction x as [| a x IH]; simpl.
  - now destruct (NilEmpty.uint_of_string y).
  - now rewrite IH.
Qed.

Lemma range_unreadable (c : ascii) (r t : string) :
  NilZero.int_of_string (String c r ++ "-" ++ t) = None.
Proof.
  change (String c r ++ "-" ++ t) with (String c (r ++ String "-" t)).
  unfold NilZero.int_of_string, NilZero.uint_of_string.
  destruct (Ascii.eqb c "-").
  - rewrite hyphen_inside_unreadable. now destruct (r ++ String "-" t).
  - change (NilEmpty.uint_of_string (String c (r ++ String "-" t)))
      with (NilEmpty.uint_of_string ((String c r) ++ String "-" t)).
    now rewrite hyphen_inside_unreadable.
Qed.

(** A range is never the print of a single number. *)
Lemma range_not_number (a b z : Z) :
  Number_toString a ++ "-" ++ Number_toString b <> Number_toString z.
Proof.
  intros E. apply (f_equal NilZero.int_of_string) in E.
  rewrite Number_toString_read_back in E.
  destruct (Number_toString_cons a) as (c & r & Ea). rewrite Ea in E.
  rewrite range_unreadable in E. discriminate.
Qed.

Lemma append_inj_l (p a b : string) : p ++ a = p ++ b -> a = b.
Proof.
  induction p as [| c p IH]; simpl; intros E; [exact E |].
  injection E. exact IH.
Qed.

Lemma append_inj_r (s a b : string) : a ++ s = b ++ s -> a = b.
Proof.
  revert b. induction a as [| c a IH]; intros [| d b] E; simpl in E.
  - reflexivity.
  - apply (f_equal String.length) in E. simpl in E.
    rewrite length_append in E. lia.
  - apply (f_equal String.length) in E. simpl in E.
    rewrite length_append in E. lia.
  - injection E as -> E. f_equal. now apply IH.
Qed.

(** With the start year fixed, the year display determines the current
    year. *)
Lemma yearDisplay_inj (startYear : option Z) (Y1 Y2 : Z) :
  yearDisplay startYear Y1 = yearDisplay startYear Y2 -> Y1 = Y2.
Proof.
  destruct (yearDisplay_cases startYear Y1) as [E1 | (s1 & Es1 & _ & _ & E1)];
  destruct (yearDisplay_cases startYear Y2) as [E2 | (s2 & Es2 & _ & _ & E2)];
    rewrite E1, E2; intros E.
  - now apply Number_toString_inj.
  - symmetry in E. now apply range_not_number in E.
  - now apply range_not_number in E.
  - assert (s1 = s2) as -> by congruence.
    apply append_inj_l in E. apply (append_inj_l "-") in E.
    now apply Number_toString_inj.
Qed.

(** *** The layout of the text *)

Lemma assemble_layout (p : string) (startYear : option Z) (Y : Z)
      (n : option string) (sep : string) :
  Spec.assemble p (yearDisplay startYear Y) n sep =
  lead p sep ++ yearDisplay startYear Y ++ trail n sep.
Proof.
  destruct p as [| c p].
  - rewrite assemble_two. unfold lead, trail.
    destruct n as [[| d r] |]; simpl; now rewrite ?append_empty_r.
  - rewrite assemble_three. unfold lead, trail.
    destruct n as [[| d r] |]; simpl; now rewrite ?append_empty_r, ?append_assoc.
Qed.

Lemma useCopyright_layout (options : option UseCopyrightOptions) (w : World) :
  copyright_text options w =
  (let o := default_to empty_options options in
   lead (default_to "©" (prefix o)) (default_to " " (separator o))
   ++ yearDisplay (startYear o) (year_of w)
   ++ trail (name o) (default_to " " (separator o))).
Proof.
  unfold copyright_text. rewrite useCopyright_assemble. cbn [fst]. cbv zeta.
  apply assemble_layout.
Qed.

Lemma Copyright_layout (props : CopyrightProps) (w : World) :
  Copyright_text props w =
  lead (default_to "©" (p_prefix props)) (default_to " " (p_separator props))
  ++ yearDisplay (p_startYear props) (year_of w)
  ++ trail (p_name props) (default_to " " (p_separator props)).
Proof.
  unfold Copyright_text. rewrite Copyright_run. cbn [fst elem_children createElement].
  rewrite Array_join_parts. apply assemble_layout.
Qed.

Lemma framed_inj (l t a b : string) : l ++ a ++ t = l ++ b ++ t -> a = b.
Proof.
  intros E. apply append_inj_l in E. now apply append_inj_r in E.
Qed.

(** Without an effective start year the year display is the current
    year alone. *)
Lemma yearDisplay_plain (startYear : option Z) (Y : Z) :
  (forall start, startYear = Some start -> start = 0 \/ Y <= start) ->
  yearDisplay startYear Y = Number_toString Y.
Proof.
  intros H. destruct startYear as [start |]; [| reflexivity].
  destruct (H start eq_refl) as [-> | Hle].
  - apply yearDisplay_zero.
  - now apply yearDisplay_not_before.
Qed.

(** A start year changes the year display exactly when it is not zero
    and lies before the current year. *)
Lemma yearDisplay_changed_iff (startYear : option Z) (Y : Z) :
  yearDisplay startYear Y <> yearDisplay None Y <->
  exists start, startYear = Some start /\ start <> 0 /\ start < Y.
Proof.
  rewrite yearDisplay_absent. split.
  - intros Hne.
    destruct (yearDisplay_cases startYear Y) as [E | (start & Es & Hnz & Hlt & _)].
    + contradiction.
    + now exists start.
  - intros (start & -> & Hnz & Hlt). rewrite yearDisplay_range by assumption.
    apply range_not_number.
Qed.

(** X1.  The text [AutoYear] renders depends on the clock's year and on
    nothing else, and it tells years apart: two renderings, whatever
    their props, show the same text exactly when [useAutoYear] returns
    the same number in the two worlds. *)
Theorem AutoYear_text_tracks_year (props1 props2 : AutoYearProps)
        (w1 w2 : World) :
  AutoYear_text props1 w1 = AutoYear_text props2 w2 <->
  fst (runState useAutoYear w1) = fst (runState useAutoYear w2).
Proof.
  unfold AutoYear_text. rewrite !AutoYear_run, !useAutoYear_run.
  cbn [fst elem_children createElement]. split.
  - apply Number_toString_inj.
  - now intros ->.
Qed.

(** X2.  With the options fixed, the copyright text tells years apart:
    the hook returns the same string in two worlds exactly when their
    clocks show the same year, and so does the component's text. *)
Theorem copyright_text_tracks_year (options : option UseCopyrightOptions)
        (props : CopyrightProps) (w1 w2 : World) :
  (copyright_text options w1 = copyright_text options w2 <->
   year_of w1 = year_of w2) /\
  (Copyright_text props w1 = Copyright_text props w2 <->
   year_of w1 = year_of w2).
Proof.
  rewrite !useCopyright_layout, !Copyright_layout. cbv zeta. split; split.
  - intros E. apply framed_inj in E. now apply yearDisplay_inj in E.
  - now intros ->.
  - intros E. apply framed_inj in E. now apply yearDisplay_inj in E.
  - now intros ->.
Qed.

(** X3.  Passing a start year changes what the hook returns, and what
    the component renders, exactly when the start year is not zero and
    lies before the current year; in every other case the start year is
    ignored.  When it counts and is a safe integer, the year display is
    the range "start-current" in decimal digits. *)
Theorem startYear_changes_text_iff (p n sep : option string) (s : option Z)
        (aprops : AutoYearProps) (w : World) :
  let effective := exists start, s = Some start /\ start <> 0 /\ start < year_of w in
  (copyright_text (Some (mkOptions p n s sep)) w
     <> copyright_text (Some (mkOptions p n None sep)) w <-> effective) /\
  (Copyright_text (mkCopyrightProps aprops p n s sep) w
     <> Copyright_text (mkCopyrightProps aprops p n None sep) w <-> effective) /\
  (forall start, s = Some start -> start <> 0 -> start < year_of w ->
     safe_integer start ->
     copyright_text (Some (mkOptions p n s sep)) w =
     lead (default_to "©" p) (default_to " " sep)
     ++ (Number_toString start ++ "-" ++ Number_toString (year_of w))
     ++ trail n (default_to " " sep)).
Proof.
  cbv zeta. rewrite !useCopyright_layout, !Copyright_layout.
  cbn [default_to prefix name startYear separator
       p_prefix p_name p_startYear p_separator].
  rewrite <- (yearDisplay_changed_iff s (year_of w)).
  repeat split.
  - intros Hne E. apply Hne. now rewrite E.
  - intros Hne E. apply Hne. now apply framed_inj in E.
  - intros Hne E. apply Hne. now rewrite E.
  - intros Hne E. apply Hne. now apply framed_inj in E.
  - intros start -> Hnz Hlt _. now rewrite yearDisplay_range.
Qed.

Lemma startYear_changes_text_iff_witness :
  safe_integer 2020 /\
  copyright_text (Some (mkOptions None (Some "Acme Inc") (Some 2020) None))
                 (world_in 2026)
    = "© 2020-2026 Acme Inc".
Proof.
  assert (safe_integer 2020) as Hsafe by (unfold safe_integer; simpl; lia).
  split; [exact Hsafe |].
  destruct (startYear_changes_text_iff
              None (Some "Acme Inc") None (Some 2020)
              (mkAutoYearProps None None None) (world_in 2026))
    as (_ & _ & H).
  apply (H 2020); [reflexivity | discriminate | reflexivity | exact Hsafe].
Defined.

(** X4.  An empty name is treated exactly like a missing name, by the
    hook and by the component: the name entry and its separator are both
    left out. *)
Theorem empty_name_is_absent_name (p sep : option string) (s : option Z)
        (aprops : AutoYearProps) (w : World) :
  runState (useCopyright (Some (mkOptions p (Some "") s sep))) w
    = runState (useCopyright (Some (mkOptions p None s sep))) w /\
  runState (Copyright (mkCopyrightProps aprops p (Some "") s sep)) w
    = runState (Copyright (mkCopyrightProps aprops p None s sep)) w /\
  copyright_text (Some (mkOptions p (Some "") s sep)) w
    = lead (default_to "©" p) (default_to " " sep) ++ yearDisplay s (year_of w).
Proof.
  repeat split.
  rewrite useCopyright_layout. cbn [default_to prefix name startYear separator trail].
  now rewrite append_empty_r.
Qed.

(** X5.  What is joined: the array [parts] holds between one and three
    entries, each a non-empty string and never [undefined], taken in
    order from prefix, year display and name; the hook returns their
    join, so a missing name never shows up as text. *)
Theorem parts_are_nonempty_strings (options : option UseCopyrightOptions)
        (w : World) :
  let o := default_to empty_options options in
  let parts := parts_of (default_to "©" (prefix o))
                        (yearDisplay (startYear o) (year_of w)) (name o) in
  copyright_text options w = Array_join parts (default_to " " (separator o)) /\
  Forall (fun v => exists c r, v = VString (String c r)) parts /\
  ~ In VUndefined parts /\
  (1 <= List.length parts <= 3)%nat /\
  Array_filter_Boolean parts = parts.
Proof.
  cbv zeta. unfold copyright_text. rewrite useCopyright_run. cbn [fst].
  set (o := default_to empty_options options).
  split; [reflexivity |].
  rewrite parts_of_kept.
  destruct (yearDisplay_cons (startYear o) (year_of w)) as (c & r & E).
  rewrite E.
  destruct (default_to "©" (prefix o)) as [| a q];
    destruct (name o) as [[| d t] |]; cbn;
    (split; [repeat constructor; eauto |]);
    (split; [intuition discriminate |]);
    (split; [lia | reflexivity]).
Qed.

(** X6.  [Copyright] is [AutoYear] with text around it.  When the start
    year is missing, zero, or not before the current year, the element
    [Copyright] returns is the element [AutoYear] returns for the same
    [as], [className] and [style], with the prefix (and a separator) put
    in front of its text and (a separator and) the name behind. *)
Theorem Copyright_wraps_AutoYear (props : CopyrightProps) (w : World) :
  (forall start, p_startYear props = Some start ->
     start = 0 \/ year_of w <= start) ->
  let year_el := fst (runState (AutoYear (base props)) w) in
  let sep := default_to " " (p_separator props) in
  runState (Copyright props) w =
  (mkElement (elem_type year_el) (elem_props year_el)
     (lead (default_to "©" (p_prefix props)) sep
      ++ elem_children year_el
      ++ trail (p_name props) sep),
   w).
Proof.
  intros Hs. cbv zeta.
  pose proof (Copyright_layout props w) as Htext.
  unfold Copyright_text in Htext.
  rewrite AutoYear_run. rewrite Copyright_run in *.
  cbn [fst elem_type elem_props elem_children createElement] in *.
  unfold createElement. rewrite Htext.
  now rewrite (yearDisplay_plain _ _ Hs).
Qed.

Lemma Copyright_wraps_AutoYear_witness :
  let props := mkCopyrightProps (mkAutoYearProps (Some "small") (Some "legal") None)
                                (Some "") (Some "") (Some 2030) (Some " - ") in
  (forall start, p_startYear props = Some start ->
     start = 0 \/ year_of (world_in 2026) <= start) /\
  runState (Copyright props) (world_in 2026)
    = runState (AutoYear (base props)) (world_in 2026).
Proof.
  cbv zeta.
  assert (forall start : Z, Some 2030 = Some start ->
            start = 0 \/ year_of (world_in 2026) <= start) as H.
  { intros start E. injection E as <-. right. unfold year_of. simpl. lia. }
  split; [exact H |].
  exact (Copyright_wraps_AutoYear
           (mkCopyrightProps (mkAutoYearProps (Some "small") (Some "legal") None)
                             (Some "") (Some "") (Some 2030) (Some " - "))
           (world_in 2026) H).
Defined.

(** X7.  The layout of the text, for the hook and for the component:
    the prefix followed by one separator if the prefix is not empty,
    then the year display, then one separator followed by the name if
    the name is present and not empty.  The separator is used at most
    twice and never at either end. *)
Theorem text_layout (options : option UseCopyrightOptions)
        (props : CopyrightProps) (w : World) :
  (let o := default_to empty_options options in
   let sep := default_to " " (separator o) in
   runState (useCopyright options) w =
   (lead (default_to "©" (prefix o)) sep
    ++ yearDisplay (startYear o) (year_of w)
    ++ trail (name o) sep, w)) /\
  (let sep := default_to " " (p_separator props) in
   Copyright_text props w =
   lead (default_to "©" (p_prefix props)) sep
   ++ yearDisplay (p_startYear props) (year_of w)
   ++ trail (p_name props) sep).
Proof.
  split; [| apply Copyright_layout].
  cbv zeta. rewrite useCopyright_assemble. cbv zeta.
  now rewrite assemble_layout.
Qed.
